(** * Blog list backend: the request handlers of [app.js]

    A shallow embedding of the Express application defined in [app.js]: the
    four blog routes, the unknown-endpoint middleware and the error-handling
    middleware, over an explicit model of the document store the handlers
    talk to through the [Blog] model.

    Conventions:
    - the database is threaded explicitly ([Db]); an awaited model call is a
      computation in the [Async] monad, which either resolves to a value or
      rejects with an [Error], as a promise does;
    - what a request makes the process do is a trace of [Event]s, in the
      order in which they happen: calls to [logger.error], the response that
      is sent, and an error handed to the framework's default handler.

    Outside the model: the access log written by [morgan], the CORS headers,
    the headers the framework adds on its own ([Content-Type] and the like),
    and bodies that [express.json()] cannot parse. *)

From Stdlib Require Import String Ascii List ZArith Bool Arith Lia.
Import ListNotations.
Local Open Scope string_scope.
Local Open Scope list_scope.

Set Implicit Arguments.
Set Warnings "-register-all".

(** ** Strings *)

(** [String.prototype.includes]: [sub] occurs somewhere in [s]. *)
Fixpoint includes (s sub : string) : bool :=
  String.prefix sub s ||
  match s with
  | EmptyString => false
  | String _ s' => includes s' sub
  end.

(** A string between double quotes, as error messages print values. *)
Definition quoted (s : string) : string :=
  String (ascii_of_nat 34) (s ++ String (ascii_of_nat 34) EmptyString).

(** [Array.prototype.join] on strings. *)
Fixpoint join (sep : string) (l : list string) : string :=
  match l with
  | [] => ""
  | [x] => x
  | x :: rest => x ++ sep ++ join sep rest
  end.

(** ** JSON values, as [response.json] serialises them *)

Inductive Json : Type :=
| JNull
| JString (s : string)
| JNumber (z : Z)
| JArray (items : list Json)
| JObject (fields : list (string * Json)).

(** The value stored under [key] in an object ([None] for a missing key and
    for anything that is not an object). *)
Definition field (key : string) (j : Json) : option Json :=
  match j with
  | JObject fields =>
      match find (fun kv => fst kv =? key) fields with
      | Some kv => Some (snd kv)
      | None => None
      end
  | _ => None
  end.

(** [key] is the name of a property somewhere inside the value. *)
Fixpoint mentions (key : string) (j : Json) : bool :=
  match j with
  | JArray items => existsb (mentions key) items
  | JObject fields =>
      existsb (fun kv => (fst kv =? key) || mentions key (snd kv)) fields
  | _ => false
  end.

(** ** Errors and promises *)

(** A JavaScript error object: the two properties [errorHandler] reads. *)
Record Error : Type := mkError { name : string; message : string }.

(** The error the runtime throws when a property of [null] is read. *)
Definition null_property (property : string) : string :=
  "Cannot read properties of null (reading '" ++ property ++ "')".

Definition TypeError (msg : string) : Error := mkError "TypeError" msg.

(** ** Object identifiers *)

(** A document identifier in its canonical form: [ObjectId.toString()],
    twenty-four lower-case hexadecimal digits. *)
Definition ObjectId : Type := string.

Definition is_hex (c : ascii) : bool :=
  let n := nat_of_ascii c in
  (((48 <=? n) && (n <=? 57)) || ((97 <=? n) && (n <=? 102)) ||
   ((65 <=? n) && (n <=? 70)))%nat.

Definition lower (c : ascii) : ascii :=
  let n := nat_of_ascii c in
  if ((65 <=? n) && (n <=? 90))%nat then ascii_of_nat (n + 32) else c.

Fixpoint map_string (f : ascii -> ascii) (s : string) : string :=
  match s with
  | EmptyString => EmptyString
  | String c s' => String (f c) (map_string f s')
  end.

Fixpoint all_chars (p : ascii -> bool) (s : string) : bool :=
  match s with
  | EmptyString => true
  | String c s' => p c && all_chars p s'
  end.

(** The cast the document mapper applies to an id taken from the URL: a
    string of twenty-four hexadecimal digits is an identifier, anything else
    is not one. *)
Definition castObjectId (s : string) : option ObjectId :=
  if (String.length s =? 24)%nat && all_chars is_hex s
  then Some (map_string lower s)
  else None.

(** ** The document store *)

(** Modelled from the spec: the schema of [models/blog.js], which is not
    among the sources: a post is
    [{ id, title (required), author, url (required), likes (default 0),
       owner: UserRef }]. The owner is the [user] property the tests read. *)
Record BlogDoc : Type := mkBlog {
  _id : ObjectId;
  title : string;
  author : option string;
  url : string;
  likes : Z;
  user : option ObjectId
}.

(** Modelled from the spec: the schema of [models/user.js], which is not
    among the sources: a user is
    [{ id, username, name, passwordHash, posts: [PostRef] }]. *)
Record UserDoc : Type := mkUser {
  user_id : ObjectId;
  username : string;
  user_name : string;
  passwordHash : string;
  user_blogs : list ObjectId
}.

(** The two collections of the database. *)
Record Db : Type := mkDb {
  blogs : list BlogDoc;
  users : list UserDoc
}.

(** An awaited call on the store: it may change the database, and either
    resolves ([inr]) or rejects ([inl]). *)
Definition Async (A : Type) : Type := Db -> (Error + A) * Db.

Definition resolve {A : Type} (a : A) : Async A := fun db => (inr a, db).

Definition reject {A : Type} (e : Error) : Async A := fun db => (inl e, db).

Definition await {A B : Type} (c : Async A) (k : A -> Async B) : Async B :=
  fun db =>
    match c db with
    | (inl e, db') => (inl e, db')
    | (inr a, db') => k a db'
    end.

Declare Scope async_scope.
Delimit Scope async_scope with async.
Notation "'let*' x ':=' c 'in' k" := (await c (fun x => k))
  (at level 10, x name, c at level 100, k at level 200) : async_scope.
Local Open Scope async_scope.

(** ** Request bodies *)

(** The body of a blog request after [express.json()]: the four input
    properties of a post, each present or missing. *)
Record BlogBody : Type := mkBlogBody {
  b_title : option string;
  b_author : option string;
  b_url : option string;
  b_likes : option Z
}.

(** The body of a registration request. *)
Record UserBody : Type := mkUserBody {
  b_username : option string;
  b_name : option string;
  b_password : option string
}.

(** The parsed JSON body: an empty object, a post or a registration. *)
Inductive Body : Type :=
| EmptyBody
| BlogPayload (b : BlogBody)
| UserPayload (u : UserBody).

(** What the [Blog] schema keeps of a body: its own paths; the properties of
    a registration are not paths of the schema and are dropped. *)
Definition blog_fields (body : Body) : BlogBody :=
  match body with
  | BlogPayload b => b
  | EmptyBody | UserPayload _ => mkBlogBody None None None None
  end.

(** A required string path fails validation when it is missing or empty. *)
Definition missing_or_empty (v : option string) : bool :=
  match v with
  | None => true
  | Some s => s =? ""
  end.

(** ** The [Blog] model *)

Module Blog.

(** The message of the [required] validator for one path. *)
Definition required_message (path : string) : string :=
  path ++ ": Path `" ++ path ++ "` is required.".

(** [new Blog(body)]: a document that is not stored yet. The identifier
    [oid] is the one generated for it; [likes] takes its default. *)
Record draft : Type := mkDraft {
  d_id : ObjectId;
  d_fields : BlogBody
}.

Definition new (oid : ObjectId) (body : Body) : draft :=
  mkDraft oid (blog_fields body).

(** The paths of a body that fail the schema's validators. *)
Definition validate (b : BlogBody) : list string :=
  (if missing_or_empty (b_title b) then [required_message "title"] else []) ++
  (if missing_or_empty (b_url b) then [required_message "url"] else []).

Definition ValidationError (prefix : string) (failures : list string) : Error :=
  mkError "ValidationError" (prefix ++ join ", " failures).

Definition CastError (value : string) : Error :=
  mkError "CastError"
    ("Cast to ObjectId failed for value " ++ quoted value ++
     " (type string) at path " ++ quoted "_id" ++
     " for model " ++ quoted "Blog").

Definition stored (d : draft) : BlogDoc :=
  let b := d_fields d in
  mkBlog (d_id d)
    (match b_title b with Some t => t | None => "" end)
    (b_author b)
    (match b_url b with Some u => u | None => "" end)
    (match b_likes b with Some n => n | None => 0%Z end)
    None.

(** [Blog.find({})]: every stored post, in store order. *)
Definition find : Async (list BlogDoc) :=
  fun db => (inr (blogs db), db).

(** [blog.save()]: validation, then insertion at the end of the
    collection; a document that fails validation is not written. *)
Definition save (d : draft) : Async BlogDoc :=
  fun db =>
    match validate (d_fields d) with
    | [] =>
        let doc := stored d in
        (inr doc, mkDb (blogs db ++ [doc]) (users db))
    | failures =>
        (inl (ValidationError "Blog validation failed: " failures), db)
    end.

(** The first stored post with identifier [oid]. *)
Definition findById (oid : ObjectId) (l : list BlogDoc) : option BlogDoc :=
  List.find (fun doc => _id doc =? oid) l.

(** The collection without its first post with identifier [oid]. *)
Fixpoint deleteOne (oid : ObjectId) (l : list BlogDoc) : list BlogDoc :=
  match l with
  | [] => []
  | doc :: rest =>
      if _id doc =? oid then rest else doc :: deleteOne oid rest
  end.

(** [Blog.findByIdAndDelete(id)]: the id is cast first; the post found is
    removed and returned, and [null] is returned when there is none. *)
Definition findByIdAndDelete (id : string) : Async (option BlogDoc) :=
  fun db =>
    match castObjectId id with
    | None => (inl (CastError id), db)
    | Some oid =>
        match findById oid (blogs db) with
        | Some doc => (inr (Some doc), mkDb (deleteOne oid (blogs db)) (users db))
        | None => (inr None, db)
        end
    end.

(** One post after the paths present in [b] have been set. *)
Definition apply_update (b : BlogBody) (doc : BlogDoc) : BlogDoc :=
  mkBlog (_id doc)
    (match b_title b with Some t => t | None => title doc end)
    (match b_author b with Some a => Some a | None => author doc end)
    (match b_url b with Some u => u | None => url doc end)
    (match b_likes b with Some n => n | None => likes doc end)
    (user doc).

(** The collection with its first post with identifier [oid] updated. *)
Fixpoint updateOne (oid : ObjectId) (b : BlogBody) (l : list BlogDoc)
  : list BlogDoc :=
  match l with
  | [] => []
  | doc :: rest =>
      if _id doc =? oid then apply_update b doc :: rest
      else doc :: updateOne oid b rest
  end.

(** The update validators ([runValidators]) look only at the paths the
    update sets. *)
Definition validate_update (b : BlogBody) : list string :=
  (match b_title b with
   | Some t => if t =? "" then [required_message "title"] else []
   | None => []
   end) ++
  (match b_url b with
   | Some u => if u =? "" then [required_message "url"] else []
   | None => []
   end).

(** [Blog.findByIdAndUpdate(id, body, {new: true, runValidators: true,
    context: 'query'})]: the id is cast, the update is validated, and the
    post as it is after the update is returned, or [null] when no post has
    that id. *)
Definition findByIdAndUpdate (id : string) (body : Body)
  : Async (option BlogDoc) :=
  fun db =>
    match castObjectId id with
    | None => (inl (CastError id), db)
    | Some oid =>
        match validate_update (blog_fields body) with
        | [] =>
            match findById oid (blogs db) with
            | Some doc =>
                (inr (Some (apply_update (blog_fields body) doc)),
                 mkDb (updateOne oid (blog_fields body) (blogs db)) (users db))
            | None => (inr None, db)
            end
        | failures => (inl (ValidationError "Validation failed: " failures), db)
        end
    end.

(** [result.id] on what a query returned: the identifier of a document,
    and a [TypeError] on [null]. *)
Definition id (result : option BlogDoc) : Async string :=
  match result with
  | Some doc => resolve (_id doc)
  | None => reject (TypeError (null_property "id"))
  end.

(** Modelled from the spec: the [toJSON] transform of [models/blog.js],
    which is not among the sources: a returned post exposes [id] and not
    the internal identifier; a missing property is left out, and an owner
    that was not expanded is its identifier. *)
Definition toJSON (doc : BlogDoc) : Json :=
  JObject
    ([("title", JString (title doc))] ++
     (match author doc with Some a => [("author", JString a)] | None => [] end) ++
     [("url", JString (url doc)); ("likes", JNumber (likes doc))] ++
     (match user doc with Some u => [("user", JString u)] | None => [] end) ++
     [("id", JString (_id doc))]).

(** [response.json(result)] of a query result: [null] stays [null]. *)
Definition resultJSON (result : option BlogDoc) : Json :=
  match result with
  | Some doc => toJSON doc
  | None => JNull
  end.

End Blog.

(** ** Requests and responses *)

Inductive Method : Type := GET | POST | PUT | DELETE.

(** An incoming request: the method, the segments of the URL path
    ([/api/blogs/5] is [["api"; "blogs"; "5"]]), the [Authorization] header
    when there is one, and the parsed body. *)
Record Request : Type := mkRequest {
  method : Method;
  path : list string;
  authorization : option string;
  body : Body
}.

(** The response object: status code, the headers set by the handler, and
    the body once one has been given ([None]: an empty body). *)
Record Response : Type := mkResponse {
  statusCode : nat;
  headers : list (string * string);
  payload : option Json
}.

(** The response a handler receives: status 200, nothing set. *)
Definition fresh_response : Response := mkResponse 200 [] None.

(** What a request makes the process do, in order. *)
Inductive Event : Type :=
| LoggerError (msg : string)   (* a call [logger.error(msg)] *)
| Sent (r : Response)          (* the response goes out *)
| Unhandled (e : Error).       (* the framework's default handler gets [e] *)

(** [response.status(code)]. *)
Definition status (code : nat) (r : Response) : Response :=
  mkResponse code (headers r) (payload r).

(** [response.set(field, value)]. *)
Definition set (field value : string) (r : Response) : Response :=
  mkResponse (statusCode r) ((field, value) :: headers r) (payload r).

(** [response.json(value)] and [response.send(value)] of an object: the
    value becomes the body and the response is sent. *)
Definition json (value : Json) (r : Response) : list Event :=
  [Sent (mkResponse (statusCode r) (headers r) (Some value))].

Definition send (value : Json) (r : Response) : list Event :=
  json value r.

(** [response.end()]: the response is sent as it stands. *)
Definition end_ (r : Response) : list Event := [Sent r].

(** The value of a response header. *)
Definition header (field : string) (r : Response) : option string :=
  match find (fun kv => fst kv =? field) (headers r) with
  | Some kv => Some (snd kv)
  | None => None
  end.

(** [{error: msg}]. *)
Definition error_body (msg : string) : Json :=
  JObject [("error", JString msg)].

(** ** The application *)

(** [try { ... } catch (exception) { next(exception) }] around awaited
    calls: the trace of the body when every call resolves, and what [next]
    does with the error when one rejects. *)
Definition try_catch (body : Async (list Event)) (next : Error -> list Event)
  : Db -> list Event * Db :=
  fun db =>
    match body db with
    | (inr events, db') => (events, db')
    | (inl exception, db') => (next exception, db')
    end.

Section Handlers.

Variable request : Request.
Variable response : Response.
Variable next : Error -> list Event.

(** [app.get('/api/blogs', ...)] *)
Definition get_blogs : Db -> list Event * Db :=
  try_catch
    (let* blogs := Blog.find in
     resolve (json (JArray (map Blog.toJSON blogs)) response))
    next.

(** [app.post('/api/blogs', ...)]; [oid] is the identifier generated by
    [new Blog]. *)
Definition post_blogs (oid : ObjectId) : Db -> list Event * Db :=
  let blog := Blog.new oid (body request) in
  try_catch
    (let* result := Blog.save blog in
     resolve (json (Blog.toJSON result) (status 201 response)))
    next.

(** [app.delete('/api/blogs/:id', ...)]; [id] is [request.params.id],
    which the router always binds to a string, so the guard on an
    undefined or null id never fires. *)
Definition delete_blog (id : string) : Db -> list Event * Db :=
  try_catch
    (let* result := Blog.findByIdAndDelete id in
     let* deleted := Blog.id result in
     let response := set "X-Deleted-Resource" deleted response in
     resolve (end_ (status 204 response)))
    next.

(** [app.put('/api/blogs/:id', ...)] *)
Definition put_blog (id : string) : Db -> list Event * Db :=
  try_catch
    (let blog := body request in
     let* result := Blog.findByIdAndUpdate id blog in
     resolve (json (Blog.resultJSON result) response))
    next.

(** [unknownEndpoint] *)
Definition unknownEndpoint : list Event :=
  send (error_body "unknown endpoint") (status 404 response).

(** [errorHandler] *)
Definition errorHandler (error : Error) : list Event :=
  LoggerError (message error) ::
  if name error =? "CastError" then
    send (error_body "malformatted id") (status 400 response)
  else if name error =? "ValidationError" then
    json (error_body (message error)) (status 400 response)
  else if includes (message error) "Cannot read properties of null" then
    json (error_body (message error)) (status 404 response)
  else
    next error.

End Handlers.

(** The routes, in the order in which they are registered. *)
Inductive Route : Type :=
| ListBlogs
| CreateBlog
| DeleteBlog (id : string)
| UpdateBlog (id : string)
| NoRoute.

Definition route (m : Method) (p : list string) : Route :=
  match p with
  | [a; b] =>
      if (a =? "api") && (b =? "blogs") then
        match m with
        | GET => ListBlogs
        | POST => CreateBlog
        | _ => NoRoute
        end
      else NoRoute
  | [a; b; id] =>
      if (a =? "api") && (b =? "blogs") then
        match m with
        | DELETE => DeleteBlog id
        | PUT => UpdateBlog id
        | _ => NoRoute
        end
      else NoRoute
  | _ => NoRoute
  end.

(** The framework's default error handler, reached by [next(error)] from
    [errorHandler]. *)
Definition finalhandler (e : Error) : list Event := [Unhandled e].

(** One request through the application: the matching route handler, with
    [unknownEndpoint] for a request no route matches and [errorHandler] for
    an error passed to [next]. [oid] is the identifier a new document would
    get. *)
Definition app (oid : ObjectId) (request : Request) : Db -> list Event * Db :=
  let response := fresh_response in
  let next := errorHandler response finalhandler in
  match route (method request) (path request) with
  | ListBlogs => get_blogs response next
  | CreateBlog => post_blogs request response next oid
  | DeleteBlog id => delete_blog response next id
  | UpdateBlog id => put_blog request response next id
  | NoRoute => fun db => (unknownEndpoint response, db)
  end.

(** ** The identity a credential stands for

    Modelled from the spec: the auth gate, which is not among the sources
    and which no handler of [app.js] calls: it decodes a bearer token to a
    user identity and treats a missing or malformed token as no identity.
    [issued] lists the tokens that verify against the secret, each with the
    user it was signed for. It is used below only to say whose credential a
    request carries. *)
Definition bearer_token (header : option string) : option string :=
  match header with
  | Some h =>
      if String.prefix "Bearer " h
      then Some (substring 7 (String.length h - 7) h)
      else None
  | None => None
  end.

Definition authenticate (issued : list (string * ObjectId))
  (header : option string) : option ObjectId :=
  match bearer_token header with
  | Some token =>
      match find (fun kv => fst kv =? token) issued with
      | Some kv => Some (snd kv)
      | None => None
      end
  | None => None
  end.

(** ** Sample data

    Two registered users and one post of each, as the integration tests seed
    them, and the requests the tests send. *)

Module Fixture.

Definition michael_id : ObjectId := "64b0c1d2e3f4a5b6c7d8e9f0".
Definition edsger_id : ObjectId := "64b0c1d2e3f4a5b6c7d8e9f1".
Definition react_id : ObjectId := "5a422a851b54a676234d17f7".
Definition goto_id : ObjectId := "5a422aa71b54a676234d17f8".
Definition absent_id : ObjectId := "5a422b3a1b54a676234d17f9".
Definition generated_id : ObjectId := "5a422bc61b54a676234d17fc".

Definition michael : UserDoc :=
  mkUser michael_id "mluukkai" "Michael Chan" "$2b$10$N9qo8uLOickgx2ZMRZoMye"
    [react_id].

Definition edsger : UserDoc :=
  mkUser edsger_id "hellas" "Edsger W. Dijkstra" "$2b$10$7EqJtq98hPqEX7fNZaFWoO"
    [goto_id].

Definition react_patterns : BlogDoc :=
  mkBlog react_id "React patterns" (Some "Michael Chan")
    "https://reactpatterns.com/" 7 (Some michael_id).

Definition go_to_statement : BlogDoc :=
  mkBlog goto_id "Go To Statement Considered Harmful"
    (Some "Edsger W. Dijkstra")
    "http://www.u.arizona.edu/~rubinson/copyright_violations/Go_To_Considered_Harmful.html"
    5 (Some edsger_id).

Definition seeded : Db := mkDb [react_patterns; go_to_statement] [michael; edsger].

Definition first_class_tests : BlogBody :=
  mkBlogBody (Some "First class tests") (Some "Robert C. Martin")
    (Some "http://blog.cleancoder.com/uncle-bob/2017/05/05/TestDefinitions.html")
    (Some 10%Z).

Definition untitled : BlogBody :=
  mkBlogBody (Some "") (Some "Michael Chan")
    (Some "https://ceramicstudio.ca/upcoming-courses/") (Some 5%Z).

Definition root_user : UserBody :=
  mkUserBody (Some "root") (Some "Superuser") (Some "salainen").

(** The post as [POST /api/blogs] stores the body [first_class_tests]. *)
Definition first_class_doc : BlogDoc :=
  mkBlog generated_id "First class tests" (Some "Robert C. Martin")
    "http://blog.cleancoder.com/uncle-bob/2017/05/05/TestDefinitions.html"
    10 None.

(** The tokens issued to the two users, and the headers that carry them. *)
Definition issued : list (string * ObjectId) :=
  [("eyJhbGciOiJIUzI1NiJ9.mluukkai", michael_id);
   ("eyJhbGciOiJIUzI1NiJ9.hellas", edsger_id)].

Definition edsger_bearer : string := "Bearer eyJhbGciOiJIUzI1NiJ9.hellas".

Definition michael_bearer : string := "Bearer eyJhbGciOiJIUzI1NiJ9.mluukkai".

(** The requests of the integration tests. *)
Definition list_posts : Request :=
  mkRequest GET ["api"; "blogs"] None EmptyBody.

Definition create_without_token : Request :=
  mkRequest POST ["api"; "blogs"] None (BlogPayload first_class_tests).

Definition create_with_forged_token : Request :=
  mkRequest POST ["api"; "blogs"] (Some "Bearer forged")
    (BlogPayload first_class_tests).

Definition create_as_michael : Request :=
  mkRequest POST ["api"; "blogs"] (Some michael_bearer)
    (BlogPayload first_class_tests).

Definition delete_react_as_edsger : Request :=
  mkRequest DELETE ["api"; "blogs"; react_id] (Some edsger_bearer) EmptyBody.

Definition update_absent : Request :=
  mkRequest PUT ["api"; "blogs"; absent_id] None (BlogPayload first_class_tests).

Definition register_root : Request :=
  mkRequest POST ["api"; "users"] None (UserPayload root_user).

End Fixture.

(** ** The shape of the store *)

(** An identifier in its canonical spelling: the cast leaves it as it is. *)
Definition canonical (oid : ObjectId) : bool :=
  match castObjectId oid with
  | Some spelled => spelled =? oid
  | None => false
  end.

(** A post as the handlers write it: a canonical identifier, and a title and
    a url that are not empty. *)
Definition well_formed_post (doc : BlogDoc) : bool :=
  canonical (_id doc) && negb (title doc =? "") && negb (url doc =? "").

(** A body that passes the validators of [save]. *)
Definition valid_blog (body : Body) : bool :=
  negb (missing_or_empty (b_title (blog_fields body))) &&
  negb (missing_or_empty (b_url (blog_fields body))).

(** ** The setup of the integration tests

    The [beforeEach] hook of the blog API tests: the post collection is
    emptied, then every initial post is built with [new Blog] and saved, one
    after the other. [helper.initialBlogs] is not among the sources: the
    initial posts are a parameter, each paired with the identifier that
    [new Blog] generates for it. A save that rejects ends the hook. *)

Module BlogApiTest.

(** [Blog.deleteMany({})]: every post is removed. *)
Definition deleteMany : Async unit :=
  fun db => (inr tt, mkDb [] (users db)).

(** [for (let blog of helper.initialBlogs) { ... await blogObject.save() }] *)
Fixpoint save_each (initialBlogs : list (ObjectId * Body)) : Async unit :=
  match initialBlogs with
  | [] => resolve tt
  | (oid, blog) :: rest =>
      let blogObject := Blog.new oid blog in
      let* saved := Blog.save blogObject in
      save_each rest
  end.

Definition beforeEach (initialBlogs : list (ObjectId * Body)) : Async unit :=
  let* emptied := deleteMany in
  save_each initialBlogs.

(** The post that [new Blog(blog).save()] stores. *)
Definition seed (entry : ObjectId * Body) : BlogDoc :=
  Blog.stored (Blog.new (fst entry) (snd entry)).

End BlogApiTest.

(** ** Auxiliary facts *)

(** An identifier is not in a list of literal identifiers. *)
Ltac not_listed :=
  let H := fresh "H" in
  simpl; intros H; repeat (destruct H as [H|H]; [discriminate H|]); exact H.

(** The identifiers of a literal collection are distinct. *)
Ltac distinct_ids := simpl; repeat constructor; not_listed.

Lemma prefix_app (p rest : string) : String.prefix p (p ++ rest) = true.
Proof.
  induction p as [|c p IH]; simpl.
  - destruct rest; reflexivity.
  - destruct (ascii_dec c c) as [_|Hne]; [exact IH | contradiction].
Qed.

Lemma prefix_includes (s sub : string) :
  String.prefix sub s = true -> includes s sub = true.
Proof.
  intros H. destruct s; simpl in *; rewrite H; reflexivity.
Qed.

Lemma includes_prefix (p rest : string) : includes (p ++ rest) p = true.
Proof. apply prefix_includes, prefix_app. Qed.

Lemma findById_some (oid : ObjectId) (l : list BlogDoc) (doc : BlogDoc) :
  Blog.findById oid l = Some doc -> In doc l /\ _id doc = oid.
Proof.
  unfold Blog.findById. intros H.
  apply find_some in H. destruct H as [Hin Heq].
  apply String.eqb_eq in Heq. split; assumption.
Qed.

Lemma findById_none (oid : ObjectId) (l : list BlogDoc) :
  ~ In oid (map _id l) -> Blog.findById oid l = None.
Proof.
  induction l as [|doc l IH]; simpl; intros Hnot.
  - reflexivity.
  - destruct (String.eqb_spec (_id doc) oid) as [Heq|Hne].
    + exfalso. apply Hnot. left. exact Heq.
    + apply IH. intros Hin. apply Hnot. right. exact Hin.
Qed.

Lemma deleteOne_length (oid : ObjectId) (l : list BlogDoc) (doc : BlogDoc) :
  Blog.findById oid l = Some doc ->
  S (length (Blog.deleteOne oid l)) = length l.
Proof.
  induction l as [|d l IH]; simpl; intros H.
  - discriminate.
  - destruct (_id d =? oid).
    + reflexivity.
    + simpl. f_equal. apply IH. exact H.
Qed.

Lemma deleteOne_ids_subset (oid x : ObjectId) (l : list BlogDoc) :
  In x (map _id (Blog.deleteOne oid l)) -> In x (map _id l).
Proof.
  induction l as [|d l IH]; simpl; intros H.
  - exact H.
  - destruct (_id d =? oid).
    + right. exact H.
    + simpl in H. destruct H as [H|H]; [left; exact H | right; apply IH; exact H].
Qed.

(** In a collection whose identifiers are distinct, the post that was
    deleted cannot be found any more. *)
Lemma deleteOne_removes (oid : ObjectId) (l : list BlogDoc) :
  NoDup (map _id l) -> Blog.findById oid (Blog.deleteOne oid l) = None.
Proof.
  induction l as [|d l IH]; simpl; intros Hnd.
  - reflexivity.
  - inversion Hnd as [|? ? Hnotin Hnd']; subst.
    destruct (String.eqb_spec (_id d) oid) as [Heq|Hne].
    + apply findById_none. rewrite <- Heq. exact Hnotin.
    + simpl. destruct (String.eqb_spec (_id d) oid) as [Heq'|_].
      * contradiction.
      * apply IH. exact Hnd'.
Qed.

(** Deleting keeps the identifiers distinct. *)
Lemma deleteOne_NoDup (oid : ObjectId) (l : list BlogDoc) :
  NoDup (map _id l) -> NoDup (map _id (Blog.deleteOne oid l)).
Proof.
  induction l as [|d l IH]; simpl; intros Hnd.
  - constructor.
  - inversion Hnd as [|? ? Hnotin Hnd']; subst.
    destruct (_id d =? oid).
    + exact Hnd'.
    + simpl. constructor.
      * intros Hin. apply Hnotin. eapply deleteOne_ids_subset. exact Hin.
      * apply IH. exact Hnd'.
Qed.

Lemma updateOne_ids (oid : ObjectId) (b : BlogBody) (l : list BlogDoc) :
  map _id (Blog.updateOne oid b l) = map _id l.
Proof.
  induction l as [|d l IH]; simpl.
  - reflexivity.
  - destruct (_id d =? oid); simpl.
    + reflexivity.
    + rewrite IH. reflexivity.
Qed.

Lemma NoDup_snoc (A : Type) (l : list A) (x : A) :
  NoDup l -> ~ In x l -> NoDup (l ++ [x]).
Proof.
  induction l as [|a l IH]; simpl; intros Hnd Hnot.
  - constructor; [intros [] | constructor].
  - inversion Hnd as [|? ? Ha Hl]; subst. constructor.
    + rewrite in_app_iff. intros [Hin|[Heq|[]]].
      * contradiction.
      * apply Hnot. left. symmetry. exact Heq.
    + apply IH; [exact Hl|]. intros Hin. apply Hnot. right. exact Hin.
Qed.

(** The route table, read backwards. *)
Lemma route_blogs (m : Method) : 
  route m ["api"; "blogs"] =
  match m with GET => ListBlogs | POST => CreateBlog | _ => NoRoute end.
Proof. reflexivity. Qed.

Lemma route_blog (m : Method) (id : string) :
  route m ["api"; "blogs"; id] =
  match m with DELETE => DeleteBlog id | PUT => UpdateBlog id | _ => NoRoute end.
Proof. reflexivity. Qed.

(** No handler reads the [Authorization] header: a request is answered the
    same way whatever credential it carries. *)
Lemma app_ignores_authorization
  (oid : ObjectId) (m : Method) (p : list string) (a a' : option string)
  (b : Body) (db : Db) :
  app oid (mkRequest m p a b) db = app oid (mkRequest m p a' b) db.
Proof. reflexivity. Qed.

(** No handler writes to the user collection. *)
Lemma app_keeps_users (oid : ObjectId) (request : Request) (db : Db) :
  users (snd (app oid request db)) = users db.
Proof.
  unfold app.
  destruct (route (method request) (path request)) as [| |id|id|]; simpl.
  - reflexivity.
  - unfold post_blogs, try_catch, await, Blog.save.
    destruct (Blog.validate _); reflexivity.
  - unfold delete_blog, try_catch, await, Blog.findByIdAndDelete.
    destruct (castObjectId id) as [target|]; [|reflexivity].
    destruct (Blog.findById target (blogs db)); reflexivity.
  - unfold put_blog, try_catch, await, Blog.findByIdAndUpdate.
    destruct (castObjectId id) as [target|]; [|reflexivity].
    destruct (Blog.validate_update _); [|reflexivity].
    destruct (Blog.findById target (blogs db)); reflexivity.
  - reflexivity.
Qed.

(** ** The error translator *)

(** C5. [errorHandler] logs the message of every error it receives before
    anything else, and then maps the error in this order: a [CastError] is
    answered 400 with [{error: 'malformatted id'}]; otherwise a
    [ValidationError] is answered 400 with the error's message as the
    [error] property; otherwise an error whose message is that of a
    dereference of null is answered 404; every other error is passed on to
    [next] and nothing is sent by the handler. *)
Theorem errorHandler_precedence
  (response : Response) (next : Error -> list Event) (error : Error) :
  exists rest,
    errorHandler response next error = LoggerError (message error) :: rest /\
    (name error = "CastError" ->
     rest = [Sent (mkResponse 400 (headers response)
                     (Some (error_body "malformatted id")))]) /\
    (name error <> "CastError" -> name error = "ValidationError" ->
     rest = [Sent (mkResponse 400 (headers response)
                     (Some (error_body (message error))))]) /\
    (name error <> "CastError" -> name error <> "ValidationError" ->
     includes (message error) "Cannot read properties of null" = true ->
     rest = [Sent (mkResponse 404 (headers response)
                     (Some (error_body (message error))))]) /\
    (name error <> "CastError" -> name error <> "ValidationError" ->
     includes (message error) "Cannot read properties of null" = false ->
     rest = next error).
Proof.
  unfold errorHandler. eexists. split; [reflexivity|].
  destruct (String.eqb_spec (name error) "CastError") as [Hc|Hc];
    destruct (String.eqb_spec (name error) "ValidationError") as [Hv|Hv];
    destruct (includes (message error) "Cannot read properties of null") eqn:Hn;
    repeat split; intros; try reflexivity; try congruence; try contradiction.
Qed.

(** ** Creating a post *)

(** C8. A [POST /api/blogs] whose title or url is missing or empty is
    answered 400 with a body whose [error] property contains
    [Blog validation failed]; the store is left as it was. *)
Theorem post_blog_invalid_is_rejected
  (oid : ObjectId) (request : Request) (db : Db) :
  method request = POST ->
  path request = ["api"; "blogs"] ->
  missing_or_empty (b_title (blog_fields (body request))) = true \/
  missing_or_empty (b_url (blog_fields (body request))) = true ->
  exists msg,
    app oid request db =
      ([LoggerError msg; Sent (mkResponse 400 [] (Some (error_body msg)))], db) /\
    includes msg "Blog validation failed" = true.
Proof.
  intros Hm Hp Hbad.
  unfold app. rewrite Hm, Hp, route_blogs.
  unfold post_blogs, try_catch, await, Blog.save, Blog.new, Blog.validate.
  cbn [Blog.d_fields].
  destruct (missing_or_empty (b_title (blog_fields (body request)))) eqn:Ht;
    destruct (missing_or_empty (b_url (blog_fields (body request)))) eqn:Hu;
    try (destruct Hbad; discriminate);
    (eexists; split;
     [ reflexivity
     | cbn [message Blog.ValidationError];
       apply (includes_prefix "Blog validation failed" (": " ++ _)) ]).
Qed.

Lemma post_blog_invalid_is_rejected_witness :
  exists msg,
    app Fixture.generated_id
        (mkRequest POST ["api"; "blogs"] (Some Fixture.michael_bearer)
           (BlogPayload Fixture.untitled))
        Fixture.seeded =
      ([LoggerError msg; Sent (mkResponse 400 [] (Some (error_body msg)))],
       Fixture.seeded) /\
    includes msg "Blog validation failed" = true.
Proof.
  apply (@post_blog_invalid_is_rejected Fixture.generated_id
           (mkRequest POST ["api"; "blogs"] (Some Fixture.michael_bearer)
              (BlogPayload Fixture.untitled))
           Fixture.seeded).
  - reflexivity.
  - reflexivity.
  - left. reflexivity.
Defined.

(** ** Deleting a post *)

(** C9. When [DELETE /api/blogs/:id] succeeds, that is answers 204: the id
    is the identifier of a stored post, that post is removed from the store
    (one post fewer, nothing else touched, and the post is not found any
    more in a store with distinct identifiers), and the response is the only
    thing that happens: it has an empty body and an [X-Deleted-Resource]
    header whose value is the identifier of the deleted post. *)
Theorem delete_blog_success
  (oid : ObjectId) (request : Request) (id : string) (db db' : Db)
  (events : list Event) (r : Response) :
  method request = DELETE ->
  path request = ["api"; "blogs"; id] ->
  app oid request db = (events, db') ->
  In (Sent r) events ->
  statusCode r = 204 ->
  exists doc,
    castObjectId id = Some (_id doc) /\
    Blog.findById (_id doc) (blogs db) = Some doc /\
    blogs db' = Blog.deleteOne (_id doc) (blogs db) /\
    users db' = users db /\
    S (length (blogs db')) = length (blogs db) /\
    (NoDup (map _id (blogs db)) -> Blog.findById (_id doc) (blogs db') = None) /\
    events = [Sent r] /\
    payload r = None /\
    header "X-Deleted-Resource" r = Some (_id doc).
Proof.
  intros Hm Hp Happ Hin Hstatus.
  unfold app in Happ. rewrite Hm, Hp, route_blog in Happ.
  unfold delete_blog, try_catch, await, Blog.findByIdAndDelete in Happ.
  destruct (castObjectId id) as [target|] eqn:Hcast.
  - destruct (Blog.findById target (blogs db)) as [doc|] eqn:Hfind.
    + destruct (findById_some _ _ Hfind) as [_ Hid].
      cbn in Happ. injection Happ as Hev Hdb. subst events db'.
      destruct Hin as [Hr|[]]. injection Hr as Hr. subst r. subst target.
      exists doc. cbn.
      repeat split; try reflexivity; try assumption.
      * eapply deleteOne_length. exact Hfind.
      * intros Hnd. apply deleteOne_removes. exact Hnd.
    + cbn in Happ. injection Happ as Hev Hdb. subst events.
      destruct Hin as [Hr|[Hr|[]]]; [discriminate|].
      injection Hr as Hr. subst r. discriminate.
  - cbn in Happ. injection Happ as Hev Hdb. subst events.
    destruct Hin as [Hr|[Hr|[]]]; [discriminate|].
    injection Hr as Hr. subst r. discriminate.
Qed.

Lemma delete_blog_success_witness :
  exists doc,
    castObjectId Fixture.react_id = Some (_id doc) /\
    Blog.findById (_id doc) (blogs Fixture.seeded) = Some doc /\
    [Fixture.go_to_statement] = Blog.deleteOne (_id doc) (blogs Fixture.seeded) /\
    [Fixture.michael; Fixture.edsger] = users Fixture.seeded /\
    2 = length (blogs Fixture.seeded) /\
    (NoDup (map _id (blogs Fixture.seeded)) ->
     Blog.findById (_id doc) [Fixture.go_to_statement] = None) /\
    [Sent (mkResponse 204 [("X-Deleted-Resource", Fixture.react_id)] None)] =
      [Sent (mkResponse 204 [("X-Deleted-Resource", Fixture.react_id)] None)] /\
    @None Json = None /\
    Some Fixture.react_id = Some (_id doc).
Proof.
  apply (@delete_blog_success Fixture.generated_id
           (mkRequest DELETE ["api"; "blogs"; Fixture.react_id]
              (Some Fixture.michael_bearer) EmptyBody)
           Fixture.react_id Fixture.seeded
           (mkDb [Fixture.go_to_statement] [Fixture.michael; Fixture.edsger])
           [Sent (mkResponse 204 [("X-Deleted-Resource", Fixture.react_id)] None)]
           (mkResponse 204 [("X-Deleted-Resource", Fixture.react_id)] None)).
  - reflexivity.
  - reflexivity.
  - reflexivity.
  - left. reflexivity.
  - reflexivity.
Defined.

(** C10. A [DELETE /api/blogs/:id] whose id is well formed but is the
    identifier of no stored post: the delete resolves to [null], reading
    [id] of it throws, and the error translator answers 404, not 204; the
    store is left as it was. *)
Theorem delete_blog_unknown_id
  (oid : ObjectId) (request : Request) (id : string) (target : ObjectId)
  (db : Db) :
  method request = DELETE ->
  path request = ["api"; "blogs"; id] ->
  castObjectId id = Some target ->
  ~ In target (map _id (blogs db)) ->
  Blog.findByIdAndDelete id db = (inr None, db) /\
  Blog.id None db = (inl (TypeError (null_property "id")), db) /\
  app oid request db =
    ([LoggerError (null_property "id");
      Sent (mkResponse 404 [] (Some (error_body (null_property "id"))))],
     db).
Proof.
  intros Hm Hp Hcast Habsent.
  apply findById_none in Habsent.
  assert (Hdel : Blog.findByIdAndDelete id db = (inr None, db)).
  { unfold Blog.findByIdAndDelete. rewrite Hcast, Habsent. reflexivity. }
  split; [exact Hdel|]. split; [reflexivity|].
  unfold app. rewrite Hm, Hp, route_blog.
  unfold delete_blog, try_catch, await. rewrite Hdel. reflexivity.
Qed.

Lemma delete_blog_unknown_id_witness :
  Blog.findByIdAndDelete Fixture.absent_id Fixture.seeded =
    (inr None, Fixture.seeded) /\
  Blog.id None Fixture.seeded =
    (inl (TypeError (null_property "id")), Fixture.seeded) /\
  app Fixture.generated_id
      (mkRequest DELETE ["api"; "blogs"; Fixture.absent_id] None EmptyBody)
      Fixture.seeded =
    ([LoggerError (null_property "id");
      Sent (mkResponse 404 [] (Some (error_body (null_property "id"))))],
     Fixture.seeded).
Proof.
  apply (@delete_blog_unknown_id Fixture.generated_id
           (mkRequest DELETE ["api"; "blogs"; Fixture.absent_id] None EmptyBody)
           Fixture.absent_id Fixture.absent_id Fixture.seeded).
  - reflexivity.
  - reflexivity.
  - reflexivity.
  - not_listed.
Defined.

(** ** Where the handlers part from the documented contract

    The application has no authentication gate, no user routes and no owner
    handling: no handler reads the [Authorization] header or the user
    collection. The runs below evaluate the application on the requests of
    the integration tests that expect otherwise. *)

(** C1. A [POST /api/blogs] without a bearer token and with a valid body is
    not refused: the application answers 201 with the new post and appends
    it to the post collection, where the claim asks for 401 with
    [{error: 'unauthorized'}] and an unchanged collection. *)
Theorem post_blog_without_token_is_created :
  authorization Fixture.create_without_token = None /\
  authenticate Fixture.issued (authorization Fixture.create_without_token) =
    None /\
  app Fixture.generated_id Fixture.create_without_token Fixture.seeded =
    ([Sent (mkResponse 201 [] (Some (Blog.toJSON Fixture.first_class_doc)))],
     mkDb (blogs Fixture.seeded ++ [Fixture.first_class_doc])
          (users Fixture.seeded)) /\
  authenticate Fixture.issued (authorization Fixture.create_with_forged_token) =
    None /\
  app Fixture.generated_id Fixture.create_with_forged_token Fixture.seeded =
    ([Sent (mkResponse 201 [] (Some (Blog.toJSON Fixture.first_class_doc)))],
     mkDb (blogs Fixture.seeded ++ [Fixture.first_class_doc])
          (users Fixture.seeded)) /\
  length (blogs Fixture.seeded ++ [Fixture.first_class_doc]) =
    S (length (blogs Fixture.seeded)).
Proof. repeat split. Qed.

(** C2. A [DELETE /api/blogs/:id] sent with the credential of a user who
    does not own the post is not refused: the application answers 204 and
    removes the post, where the claim asks for 403 and an unchanged
    collection. *)
Theorem delete_blog_by_non_owner_succeeds :
  authenticate Fixture.issued (authorization Fixture.delete_react_as_edsger) =
    Some Fixture.edsger_id /\
  Blog.findById Fixture.react_id (blogs Fixture.seeded) =
    Some Fixture.react_patterns /\
  user Fixture.react_patterns = Some Fixture.michael_id /\
  Fixture.michael_id <> Fixture.edsger_id /\
  app Fixture.generated_id Fixture.delete_react_as_edsger Fixture.seeded =
    ([Sent (mkResponse 204 [("X-Deleted-Resource", Fixture.react_id)] None)],
     mkDb [Fixture.go_to_statement] (users Fixture.seeded)).
Proof. repeat split. discriminate. Qed.

(** C3. A [POST /api/users] with a fresh username and a password of three
    characters or more matches no route: [unknownEndpoint] answers 404 with
    [{error: 'unknown endpoint'}] and no user is created, where the claim
    asks for 201 with the created user. *)
Theorem register_user_is_unknown_endpoint :
  route (method Fixture.register_root) (path Fixture.register_root) = NoRoute /\
  app Fixture.generated_id Fixture.register_root Fixture.seeded =
    ([Sent (mkResponse 404 [] (Some (error_body "unknown endpoint")))],
     Fixture.seeded).
Proof. split; reflexivity. Qed.

(** C4. A [PUT /api/blogs/:id] whose id is well formed and is the identifier
    of no stored post is answered 200 with the body [null]: the update
    resolves to [null], the handler never reads a property of it, and
    [errorHandler] is not reached, where the claim asks for 404. *)
Theorem put_blog_unknown_id_is_200_null :
  castObjectId Fixture.absent_id = Some Fixture.absent_id /\
  Blog.findById Fixture.absent_id (blogs Fixture.seeded) = None /\
  Blog.findByIdAndUpdate Fixture.absent_id (body Fixture.update_absent)
      Fixture.seeded = (inr None, Fixture.seeded) /\
  app Fixture.generated_id Fixture.update_absent Fixture.seeded =
    ([Sent (mkResponse 200 [] (Some JNull))], Fixture.seeded).
Proof. repeat split. Qed.

(** C6. A [POST /api/blogs] with a bearer credential and a valid body is
    answered 201 and the post is stored, but the post gets no owner, the
    response carries no [user] property, and the post list of the sender is
    not extended, where the claim asks for a reference appended to the
    owner's list and the owner expanded in the response. *)
Theorem post_blog_does_not_link_owner :
  authenticate Fixture.issued (authorization Fixture.create_as_michael) =
    Some Fixture.michael_id /\
  app Fixture.generated_id Fixture.create_as_michael Fixture.seeded =
    ([Sent (mkResponse 201 [] (Some (Blog.toJSON Fixture.first_class_doc)))],
     mkDb (blogs Fixture.seeded ++ [Fixture.first_class_doc])
          [Fixture.michael; Fixture.edsger]) /\
  user Fixture.first_class_doc = None /\
  field "user" (Blog.toJSON Fixture.first_class_doc) = None /\
  user_blogs Fixture.michael = [Fixture.react_id] /\
  user_blogs Fixture.edsger = [Fixture.goto_id].
Proof. repeat split. Qed.

(** C7. A [GET /api/blogs] answers with every stored post and changes
    nothing, but the owner of a post is returned as the stored reference,
    its identifier, and not expanded to [{id, username, name}] as the claim
    asks: no [username] or [name] property occurs in the response. *)
Theorem get_blogs_does_not_expand_owner :
  exists items,
    app Fixture.generated_id Fixture.list_posts Fixture.seeded =
      ([Sent (mkResponse 200 [] (Some (JArray items)))], Fixture.seeded) /\
    length items = length (blogs Fixture.seeded) /\
    map (field "user") items =
      [Some (JString Fixture.michael_id); Some (JString Fixture.edsger_id)] /\
    mentions "username" (JArray items) = false /\
    mentions "name" (JArray items) = false.
Proof. eexists. repeat split. Qed.

(** ** What the handlers do on every request *)

(** Listing: [GET /api/blogs] answers 200 with every stored post, in store
    order, each as [toJSON] renders it, and leaves the store as it was. *)
Theorem get_blogs_lists_store (oid : ObjectId) (request : Request) (db : Db) :
  method request = GET ->
  path request = ["api"; "blogs"] ->
  app oid request db =
    ([Sent (mkResponse 200 []
              (Some (JArray (map Blog.toJSON (blogs db)))))],
     db).
Proof.
  intros Hm Hp. unfold app. rewrite Hm, Hp, route_blogs. reflexivity.
Qed.

Lemma get_blogs_lists_store_witness :
  app Fixture.generated_id Fixture.list_posts Fixture.seeded =
    ([Sent (mkResponse 200 []
              (Some (JArray (map Blog.toJSON (blogs Fixture.seeded)))))],
     Fixture.seeded).
Proof.
  apply (@get_blogs_lists_store Fixture.generated_id Fixture.list_posts
           Fixture.seeded); reflexivity.
Defined.

(** Creation: a [POST /api/blogs] with a non-empty title and url, whatever
    credential it carries, is answered 201 with the stored post, which is
    appended to the collection with the generated identifier, [likes] taking
    0 when the body has none, and no owner. *)
Theorem post_blog_valid_is_created
  (oid : ObjectId) (request : Request) (db : Db) (t u : string) :
  method request = POST ->
  path request = ["api"; "blogs"] ->
  b_title (blog_fields (body request)) = Some t -> t <> "" ->
  b_url (blog_fields (body request)) = Some u -> u <> "" ->
  let doc :=
    mkBlog oid t (b_author (blog_fields (body request))) u
      (match b_likes (blog_fields (body request)) with
       | Some n => n
       | None => 0%Z
       end)
      None in
  app oid request db =
    ([Sent (mkResponse 201 [] (Some (Blog.toJSON doc)))],
     mkDb (blogs db ++ [doc]) (users db)).
Proof.
  intros Hm Hp Ht Htne Hu Hune doc. subst doc.
  unfold app. rewrite Hm, Hp, route_blogs.
  unfold post_blogs, try_catch, await, Blog.save, Blog.new, Blog.validate,
    Blog.stored.
  cbn [Blog.d_fields Blog.d_id]. rewrite Ht, Hu. cbn [missing_or_empty].
  apply String.eqb_neq in Htne, Hune. rewrite Htne, Hune. reflexivity.
Qed.

Lemma post_blog_valid_is_created_witness :
  app Fixture.generated_id Fixture.create_without_token Fixture.seeded =
    ([Sent (mkResponse 201 [] (Some (Blog.toJSON Fixture.first_class_doc)))],
     mkDb (blogs Fixture.seeded ++ [Fixture.first_class_doc])
          (users Fixture.seeded)).
Proof.
  apply (@post_blog_valid_is_created Fixture.generated_id
           Fixture.create_without_token Fixture.seeded
           "First class tests"
           "http://blog.cleancoder.com/uncle-bob/2017/05/05/TestDefinitions.html");
    try reflexivity; discriminate.
Defined.

(** Deletion: a [DELETE /api/blogs/:id] whose id is the identifier of a
    stored post, whatever credential it carries and whoever owns the post,
    is answered 204 with the [X-Deleted-Resource] header and removes that
    post. *)
Theorem delete_blog_existing
  (oid : ObjectId) (request : Request) (id : string) (db : Db) (doc : BlogDoc) :
  method request = DELETE ->
  path request = ["api"; "blogs"; id] ->
  castObjectId id = Some (_id doc) ->
  Blog.findById (_id doc) (blogs db) = Some doc ->
  app oid request db =
    ([Sent (mkResponse 204 [("X-Deleted-Resource", _id doc)] None)],
     mkDb (Blog.deleteOne (_id doc) (blogs db)) (users db)).
Proof.
  intros Hm Hp Hcast Hfind.
  unfold app. rewrite Hm, Hp, route_blog.
  unfold delete_blog, try_catch, await, Blog.findByIdAndDelete.
  rewrite Hcast, Hfind. reflexivity.
Qed.

Lemma delete_blog_existing_witness :
  app Fixture.generated_id Fixture.delete_react_as_edsger Fixture.seeded =
    ([Sent (mkResponse 204 [("X-Deleted-Resource", Fixture.react_id)] None)],
     mkDb (Blog.deleteOne Fixture.react_id (blogs Fixture.seeded))
          (users Fixture.seeded)).
Proof.
  apply (@delete_blog_existing Fixture.generated_id
           Fixture.delete_react_as_edsger Fixture.react_id Fixture.seeded
           Fixture.react_patterns); reflexivity.
Defined.



(** Update of a missing post: a [PUT /api/blogs/:id] with a well-formed id
    that is the identifier of no stored post, and an update that passes the
    validators, is answered 200 with the body [null]; nothing is logged and
    the store is left as it was. *)
Theorem put_blog_unknown_id
  (oid : ObjectId) (request : Request) (id : string) (target : ObjectId)
  (db : Db) :
  method request = PUT ->
  path request = ["api"; "blogs"; id] ->
  castObjectId id = Some target ->
  ~ In target (map _id (blogs db)) ->
  Blog.validate_update (blog_fields (body request)) = [] ->
  app oid request db = ([Sent (mkResponse 200 [] (Some JNull))], db).
Proof.
  intros Hm Hp Hcast Habsent Hvalid.
  apply findById_none in Habsent.
  unfold app. rewrite Hm, Hp, route_blog.
  unfold put_blog, try_catch, await, Blog.findByIdAndUpdate.
  rewrite Hcast, Hvalid, Habsent. reflexivity.
Qed.

Lemma put_blog_unknown_id_witness :
  app Fixture.generated_id Fixture.update_absent Fixture.seeded =
    ([Sent (mkResponse 200 [] (Some JNull))], Fixture.seeded).
Proof.
  apply (@put_blog_unknown_id Fixture.generated_id Fixture.update_absent
           Fixture.absent_id Fixture.absent_id Fixture.seeded);
    try reflexivity.
  not_listed.
Defined.



Lemma users_route_is_unknown (m : Method) : route m ["api"; "users"] = NoRoute.
Proof. destruct m; reflexivity. Qed.

(** The owner of a post is serialised as the stored reference: the [user]
    property of a returned post is the owner's identifier when the post has
    an owner, and is missing otherwise. *)
Lemma toJSON_user (doc : BlogDoc) :
  field "user" (Blog.toJSON doc) =
  match user doc with
  | Some owner => Some (JString owner)
  | None => None
  end.
Proof.
  unfold Blog.toJSON, field.
  destruct (author doc); destruct (user doc); reflexivity.
Qed.



(** Deleting twice: in a store with distinct identifiers, repeating a
    [DELETE /api/blogs/:id] leaves the store as the first request left it. *)
Theorem delete_blog_idempotent
  (oid oid' : ObjectId) (request : Request) (id : string) (db : Db) :
  method request = DELETE ->
  path request = ["api"; "blogs"; id] ->
  NoDup (map _id (blogs db)) ->
  snd (app oid' request (snd (app oid request db))) = snd (app oid request db).
Proof.
  intros Hm Hp Hnd.
  unfold app. rewrite Hm, Hp, route_blog.
  unfold delete_blog, try_catch, await, Blog.findByIdAndDelete.
  destruct (castObjectId id) as [target|] eqn:Hcast; [|reflexivity].
  destruct (Blog.findById target (blogs db)) as [doc|] eqn:Hfind;
    cbn [snd fst blogs users Blog.id resolve reject end_ status set].
  - rewrite (@deleteOne_removes target (blogs db) Hnd). reflexivity.
  - rewrite Hfind. reflexivity.
Qed.

Lemma delete_blog_idempotent_witness :
  snd (app Fixture.absent_id Fixture.delete_react_as_edsger
         (snd (app Fixture.generated_id Fixture.delete_react_as_edsger
                 Fixture.seeded))) =
  snd (app Fixture.generated_id Fixture.delete_react_as_edsger Fixture.seeded).
Proof.
  apply (@delete_blog_idempotent Fixture.generated_id Fixture.absent_id
           Fixture.delete_react_as_edsger Fixture.react_id Fixture.seeded).
  - reflexivity.
  - reflexivity.
  - distinct_ids.
Defined.

(** Identifiers stay distinct: if the stored posts have distinct identifiers
    and the identifier generated for a new document is not one of them, the
    stored posts have distinct identifiers after any request. *)
Theorem app_preserves_distinct_ids
  (oid : ObjectId) (request : Request) (db : Db) :
  NoDup (map _id (blogs db)) ->
  ~ In oid (map _id (blogs db)) ->
  NoDup (map _id (blogs (snd (app oid request db)))).
Proof.
  intros Hnd Hfresh. unfold app.
  destruct (route (method request) (path request)) as [| |id|id|]; simpl.
  - exact Hnd.
  - unfold post_blogs, try_catch, await, Blog.save.
    destruct (Blog.validate _); simpl; [|exact Hnd].
    rewrite map_app. simpl. apply NoDup_snoc; assumption.
  - unfold delete_blog, try_catch, await, Blog.findByIdAndDelete.
    destruct (castObjectId id) as [target|]; [|exact Hnd].
    destruct (Blog.findById target (blogs db)); simpl; [|exact Hnd].
    apply deleteOne_NoDup. exact Hnd.
  - unfold put_blog, try_catch, await, Blog.findByIdAndUpdate.
    destruct (castObjectId id) as [target|]; [|exact Hnd].
    destruct (Blog.validate_update _); [|exact Hnd].
    destruct (Blog.findById target (blogs db)); simpl; [|exact Hnd].
    rewrite updateOne_ids. exact Hnd.
  - exact Hnd.
Qed.

Lemma app_preserves_distinct_ids_witness :
  NoDup (map _id (blogs (snd (app Fixture.generated_id
                                Fixture.create_as_michael Fixture.seeded)))).
Proof.
  apply (@app_preserves_distinct_ids Fixture.generated_id
           Fixture.create_as_michael Fixture.seeded).
  - distinct_ids.
  - not_listed.
Defined.

(** ** The test setup and the listing *)

Lemma validate_valid (body : Body) :
  valid_blog body = true -> Blog.validate (blog_fields body) = [].
Proof.
  unfold valid_blog, Blog.validate. intros H.
  apply andb_prop in H. destruct H as [Ht Hu].
  apply negb_true_iff in Ht, Hu. rewrite Ht, Hu. reflexivity.
Qed.

Lemma validate_invalid (body : Body) :
  valid_blog body = false ->
  exists failure failures,
    Blog.validate (blog_fields body) = failure :: failures.
Proof.
  unfold valid_blog, Blog.validate. intros H.
  destruct (missing_or_empty (b_title (blog_fields body))).
  - simpl. eauto.
  - destruct (missing_or_empty (b_url (blog_fields body))).
    + simpl. eauto.
    + discriminate H.
Qed.

(** Saving valid posts one after the other appends them in that order. *)
Lemma save_each_appends (initialBlogs : list (ObjectId * Body)) (db : Db) :
  forallb (fun entry => valid_blog (snd entry)) initialBlogs = true ->
  BlogApiTest.save_each initialBlogs db =
    (inr tt, mkDb (blogs db ++ map BlogApiTest.seed initialBlogs) (users db)).
Proof.
  revert db. induction initialBlogs as [|[oid blog] rest IH]; intros db Hvalid.
  - simpl. rewrite app_nil_r. destruct db; reflexivity.
  - simpl in Hvalid. apply andb_prop in Hvalid. destruct Hvalid as [Hb Hrest].
    cbn [BlogApiTest.save_each]. unfold await, Blog.save, Blog.new.
    cbn [Blog.d_fields]. rewrite (validate_valid _ Hb).
    rewrite (IH _ Hrest). cbn [blogs users map].
    rewrite <- app_assoc. reflexivity.
Qed.

(** Seeding: when every initial post has a title and a url, [beforeEach]
    resolves and leaves exactly the initial posts in the collection, in the
    order of the list, whatever the collection held before; the user
    collection is not touched. *)
Theorem beforeEach_seeds_store
  (initialBlogs : list (ObjectId * Body)) (db : Db) :
  forallb (fun entry => valid_blog (snd entry)) initialBlogs = true ->
  BlogApiTest.beforeEach initialBlogs db =
    (inr tt, mkDb (map BlogApiTest.seed initialBlogs) (users db)).
Proof.
  intros Hvalid. unfold BlogApiTest.beforeEach, await, BlogApiTest.deleteMany.
  rewrite (save_each_appends _ _ Hvalid). reflexivity.
Qed.

Lemma beforeEach_seeds_store_witness :
  BlogApiTest.beforeEach
    [(Fixture.react_id, BlogPayload Fixture.first_class_tests);
     (Fixture.goto_id, BlogPayload Fixture.first_class_tests)]
    Fixture.seeded =
  (inr tt,
   mkDb (map BlogApiTest.seed
           [(Fixture.react_id, BlogPayload Fixture.first_class_tests);
            (Fixture.goto_id, BlogPayload Fixture.first_class_tests)])
        (users Fixture.seeded)).
Proof.
  apply (@beforeEach_seeds_store
           [(Fixture.react_id, BlogPayload Fixture.first_class_tests);
            (Fixture.goto_id, BlogPayload Fixture.first_class_tests)]
           Fixture.seeded).
  reflexivity.
Defined.

(** Saving stops at the first post that fails validation. *)
Lemma save_each_rejects
  (good rest : list (ObjectId * Body)) (oid : ObjectId) (bad : Body) (db : Db) :
  forallb (fun entry => valid_blog (snd entry)) good = true ->
  valid_blog bad = false ->
  exists msg,
    BlogApiTest.save_each (good ++ (oid, bad) :: rest) db =
      (inl (mkError "ValidationError" msg),
       mkDb (blogs db ++ map BlogApiTest.seed good) (users db)) /\
    includes msg "Blog validation failed" = true.
Proof.
  intros Hgood Hbad. revert db.
  induction good as [|[o b] good IH]; intros db.
  - destruct (validate_invalid _ Hbad) as (failure & failures & Hv).
    simpl. unfold await, Blog.save, Blog.new. cbn [Blog.d_fields].
    rewrite Hv. eexists. split.
    + rewrite app_nil_r. destruct db; reflexivity.
    + apply (includes_prefix "Blog validation failed" (": " ++ _)).
  - simpl in Hgood. apply andb_prop in Hgood. destruct Hgood as [Hb Hgood].
    simpl. unfold await at 1. unfold Blog.save, Blog.new.
    cbn [Blog.d_fields]. rewrite (validate_valid _ Hb).
    destruct (IH Hgood
                (mkDb (blogs db ++ [Blog.stored (Blog.mkDraft o (blog_fields b))])
                   (users db)))
      as (msg & Hrun & Hmsg).
    exists msg. split; [|exact Hmsg].
    rewrite Hrun. cbn [blogs users]. rewrite <- app_assoc. reflexivity.
Qed.

(** A failing setup: when an initial post has no title or no url, and the
    posts before it are valid, [beforeEach] rejects with the validation
    error of that post; the posts before it have been stored, that post and
    the ones after it have not. *)
Theorem beforeEach_stops_at_invalid
  (good rest : list (ObjectId * Body)) (oid : ObjectId) (bad : Body) (db : Db) :
  forallb (fun entry => valid_blog (snd entry)) good = true ->
  valid_blog bad = false ->
  exists msg,
    BlogApiTest.beforeEach (good ++ (oid, bad) :: rest) db =
      (inl (mkError "ValidationError" msg),
       mkDb (map BlogApiTest.seed good) (users db)) /\
    includes msg "Blog validation failed" = true.
Proof.
  intros Hgood Hbad.
  destruct (@save_each_rejects good rest oid bad (mkDb [] (users db))
              Hgood Hbad)
    as (msg & Hrun & Hmsg).
  exists msg. split; [|exact Hmsg].
  unfold BlogApiTest.beforeEach, await, BlogApiTest.deleteMany.
  rewrite Hrun. reflexivity.
Qed.

Lemma beforeEach_stops_at_invalid_witness :
  exists msg,
    BlogApiTest.beforeEach
      ([(Fixture.react_id, BlogPayload Fixture.first_class_tests)] ++
       (Fixture.goto_id, BlogPayload Fixture.untitled) ::
       [(Fixture.absent_id, BlogPayload Fixture.first_class_tests)])
      Fixture.seeded =
      (inl (mkError "ValidationError" msg),
       mkDb (map BlogApiTest.seed
               [(Fixture.react_id, BlogPayload Fixture.first_class_tests)])
            (users Fixture.seeded)) /\
    includes msg "Blog validation failed" = true.
Proof.
  apply (@beforeEach_stops_at_invalid
           [(Fixture.react_id, BlogPayload Fixture.first_class_tests)]
           [(Fixture.absent_id, BlogPayload Fixture.first_class_tests)]
           Fixture.goto_id (BlogPayload Fixture.untitled) Fixture.seeded);
    reflexivity.
Defined.

Lemma toJSON_id (doc : BlogDoc) :
  field "id" (Blog.toJSON doc) = Some (JString (_id doc)).
Proof.
  unfold Blog.toJSON, field.
  destruct (author doc); destruct (user doc); reflexivity.
Qed.

Lemma toJSON_title (doc : BlogDoc) :
  field "title" (Blog.toJSON doc) = Some (JString (title doc)).
Proof. reflexivity. Qed.

Lemma toJSON_likes (doc : BlogDoc) :
  field "likes" (Blog.toJSON doc) = Some (JNumber (likes doc)).
Proof.
  unfold Blog.toJSON, field. destruct (author doc); reflexivity.
Qed.

(** The tests [there are three blogs] and [the first blog has 7 likes], for
    every list of valid initial posts: after the setup, [GET /api/blogs]
    lists as many posts as the setup saved, in the order of the list, each
    with the [likes] it was given, and 0 when it was given none. *)
Theorem seeded_posts_are_listed
  (initialBlogs : list (ObjectId * Body)) (oid : ObjectId) (request : Request)
  (db : Db) :
  forallb (fun entry => valid_blog (snd entry)) initialBlogs = true ->
  method request = GET ->
  path request = ["api"; "blogs"] ->
  exists items,
    fst (app oid request (snd (BlogApiTest.beforeEach initialBlogs db))) =
      [Sent (mkResponse 200 [] (Some (JArray items)))] /\
    length items = length initialBlogs /\
    map (field "likes") items =
      map (fun entry =>
             Some (JNumber
                     (match b_likes (blog_fields (snd entry)) with
                      | Some n => n
                      | None => 0%Z
                      end)))
          initialBlogs.
Proof.
  intros Hvalid Hm Hp.
  unfold BlogApiTest.beforeEach, await, BlogApiTest.deleteMany.
  rewrite (save_each_appends _ _ Hvalid). cbn [snd blogs users List.app].
  rewrite (get_blogs_lists_store oid request _ Hm Hp). cbn [fst blogs].
  eexists. split; [reflexivity|]. split.
  - rewrite !length_map. reflexivity.
  - rewrite !map_map. apply map_ext. intros entry. apply toJSON_likes.
Qed.

Lemma seeded_posts_are_listed_witness :
  exists items,
    fst (app Fixture.generated_id Fixture.list_posts
           (snd (BlogApiTest.beforeEach
                   [(Fixture.react_id, BlogPayload Fixture.first_class_tests);
                    (Fixture.goto_id,
                     BlogPayload (mkBlogBody (Some "Ceramic First class") None
                                    (Some "https://ceramicstudio.ca/") None))]
                   Fixture.seeded))) =
      [Sent (mkResponse 200 [] (Some (JArray items)))] /\
    length items = 2 /\
    map (field "likes") items = [Some (JNumber 10); Some (JNumber 0)].
Proof.
  apply (@seeded_posts_are_listed
           [(Fixture.react_id, BlogPayload Fixture.first_class_tests);
            (Fixture.goto_id,
             BlogPayload (mkBlogBody (Some "Ceramic First class") None
                            (Some "https://ceramicstudio.ca/") None))]
           Fixture.generated_id Fixture.list_posts Fixture.seeded);
    reflexivity.
Defined.

(** The tests [a valid blog can be added] and [likes property has default
    value 0 when is undefined], for every store and every valid body: after
    a [POST /api/blogs] with a title and a url, [GET /api/blogs] lists the
    posts that were there, unchanged and in the same order, and then the new
    post, with the generated identifier, the title of the body, and the
    [likes] of the body, or 0 when the body has none. *)
Theorem posted_blog_is_listed
  (oid oid' : ObjectId) (create listing : Request) (db : Db) (t u : string) :
  method create = POST ->
  path create = ["api"; "blogs"] ->
  b_title (blog_fields (body create)) = Some t -> t <> "" ->
  b_url (blog_fields (body create)) = Some u -> u <> "" ->
  method listing = GET ->
  path listing = ["api"; "blogs"] ->
  exists item,
    fst (app oid' listing (snd (app oid create db))) =
      [Sent (mkResponse 200 []
               (Some (JArray (map Blog.toJSON (blogs db) ++ [item]))))] /\
    field "id" item = Some (JString oid) /\
    field "title" item = Some (JString t) /\
    field "likes" item =
      Some (JNumber (match b_likes (blog_fields (body create)) with
                     | Some n => n
                     | None => 0%Z
                     end)).
Proof.
  intros Hm Hp Ht Htne Hu Hune Hlm Hlp.
  rewrite (post_blog_valid_is_created oid create db Hm Hp Ht Htne Hu Hune).
  cbn [snd].
  rewrite (get_blogs_lists_store oid' listing _ Hlm Hlp). cbn [fst blogs].
  rewrite map_app. cbn [map].
  eexists. split; [reflexivity|].
  rewrite toJSON_id, toJSON_title, toJSON_likes. repeat split.
Qed.

Lemma posted_blog_is_listed_witness :
  exists item,
    fst (app Fixture.absent_id Fixture.list_posts
           (snd (app Fixture.generated_id Fixture.create_without_token
                   Fixture.seeded))) =
      [Sent (mkResponse 200 []
               (Some (JArray (map Blog.toJSON (blogs Fixture.seeded) ++ [item]))))] /\
    field "id" item = Some (JString Fixture.generated_id) /\
    field "title" item = Some (JString "First class tests") /\
    field "likes" item = Some (JNumber 10).
Proof.
  apply (@posted_blog_is_listed Fixture.generated_id Fixture.absent_id
           Fixture.create_without_token Fixture.list_posts Fixture.seeded
           "First class tests"
           "http://blog.cleancoder.com/uncle-bob/2017/05/05/TestDefinitions.html");
    try reflexivity; discriminate.
Defined.

(** ** Addressing a listed post *)

Lemma canonical_cast (oid : ObjectId) :
  canonical oid = true -> castObjectId oid = Some oid.
Proof.
  unfold canonical. destruct (castObjectId oid) as [spelled|]; intros H.
  - apply String.eqb_eq in H. rewrite H. reflexivity.
  - discriminate H.
Qed.

Lemma well_formed_post_inv (doc : BlogDoc) :
  well_formed_post doc = true ->
  castObjectId (_id doc) = Some (_id doc) /\ title doc <> "" /\ url doc <> "".
Proof.
  unfold well_formed_post. intros H.
  apply andb_prop in H. destruct H as [H Hu].
  apply andb_prop in H. destruct H as [Hc Ht].
  apply negb_true_iff in Ht, Hu. apply String.eqb_neq in Ht, Hu.
  split; [apply canonical_cast; exact Hc | split; assumption].
Qed.

(** A stored post can be found by its identifier: the search returns the
    first post with that identifier. *)
Lemma findById_stored (doc : BlogDoc) (l : list BlogDoc) :
  In doc l ->
  exists first, Blog.findById (_id doc) l = Some first /\ _id first = _id doc.
Proof.
  induction l as [|d l IH]; simpl; intros Hin.
  - contradiction.
  - destruct (String.eqb_spec (_id d) (_id doc)) as [Heq|Hne].
    + exists d. split; [reflexivity | exact Heq].
    + destruct Hin as [Hd|Hin]; [subst d; contradiction|].
      apply IH. exact Hin.
Qed.

(** With distinct identifiers, that post is the one searched for. *)
Lemma findById_distinct (doc : BlogDoc) (l : list BlogDoc) :
  NoDup (map _id l) -> In doc l -> Blog.findById (_id doc) l = Some doc.
Proof.
  induction l as [|d l IH]; simpl; intros Hnd Hin.
  - contradiction.
  - inversion Hnd as [|? ? Hnotin Hnd']; subst.
    destruct Hin as [Hd|Hin].
    + subst d. rewrite String.eqb_refl. reflexivity.
    + destruct (String.eqb_spec (_id d) (_id doc)) as [Heq|Hne].
      * exfalso. apply Hnotin. rewrite Heq. apply in_map. exact Hin.
      * apply IH; assumption.
Qed.

(** The test [deletion of a blog], for every store of well-formed posts: the
    [id] of any post that [GET /api/blogs] lists can be used to delete it.
    The [DELETE /api/blogs/:id] is answered 204 and names that id in
    [X-Deleted-Resource]; the next listing has one post fewer, and none with
    that id when the stored identifiers are distinct. *)
Theorem listed_blog_can_be_deleted
  (oid oid' oid'' : ObjectId) (listing delete : Request) (db : Db)
  (items : list Json) (item : Json) (id : string) :
  forallb well_formed_post (blogs db) = true ->
  method listing = GET ->
  path listing = ["api"; "blogs"] ->
  fst (app oid listing db) = [Sent (mkResponse 200 [] (Some (JArray items)))] ->
  In item items ->
  field "id" item = Some (JString id) ->
  method delete = DELETE ->
  path delete = ["api"; "blogs"; id] ->
  exists db' items',
    app oid' delete db =
      ([Sent (mkResponse 204 [("X-Deleted-Resource", id)] None)], db') /\
    app oid'' listing db' =
      ([Sent (mkResponse 200 [] (Some (JArray items')))], db') /\
    S (length items') = length items /\
    (NoDup (map _id (blogs db)) ->
     ~ In (Some (JString id)) (map (field "id") items')).
Proof.
  intros Hwf Hlm Hlp Hlist Hin Hid Hdm Hdp.
  rewrite (@get_blogs_lists_store oid listing db Hlm Hlp) in Hlist.
  cbn [fst] in Hlist. injection Hlist as Hitems. subst items.
  apply in_map_iff in Hin. destruct Hin as (doc & Hitem & Hdoc). subst item.
  rewrite toJSON_id in Hid. injection Hid as Hid. subst id.
  destruct (@findById_stored doc (blogs db) Hdoc) as (first & Hfind & Hsame).
  assert (Hcast : castObjectId (_id doc) = Some (_id first)).
  { rewrite Hsame. rewrite forallb_forall in Hwf.
    apply (@well_formed_post_inv doc (Hwf doc Hdoc)). }
  rewrite <- Hsame in Hfind.
  exists (mkDb (Blog.deleteOne (_id first) (blogs db)) (users db)).
  exists (map Blog.toJSON (Blog.deleteOne (_id first) (blogs db))).
  split.
  - rewrite (@delete_blog_existing oid' delete (_id doc) db first
               Hdm Hdp Hcast Hfind).
    rewrite Hsame. reflexivity.
  - split;
      [exact (@get_blogs_lists_store oid'' listing
                (mkDb (Blog.deleteOne (_id first) (blogs db)) (users db))
                Hlm Hlp)|].
    split.
    + rewrite !length_map. eapply deleteOne_length. exact Hfind.
    + intros Hnd Hlisted. rewrite map_map in Hlisted.
      apply in_map_iff in Hlisted. destruct Hlisted as (d & Hd & Hdin).
      rewrite toJSON_id in Hd. injection Hd as Hd.
      assert (Hnone := @deleteOne_removes (_id first) (blogs db) Hnd).
      destruct (@findById_stored d _ Hdin) as (x & Hx & _).
      rewrite Hd, <- Hsame, Hnone in Hx. discriminate Hx.
Qed.

Lemma listed_blog_can_be_deleted_witness :
  exists db' items',
    app Fixture.generated_id Fixture.delete_react_as_edsger Fixture.seeded =
      ([Sent (mkResponse 204 [("X-Deleted-Resource", Fixture.react_id)] None)],
       db') /\
    app Fixture.absent_id Fixture.list_posts db' =
      ([Sent (mkResponse 200 [] (Some (JArray items')))], db') /\
    S (length items') = length (map Blog.toJSON (blogs Fixture.seeded)) /\
    (NoDup (map _id (blogs Fixture.seeded)) ->
     ~ In (Some (JString Fixture.react_id)) (map (field "id") items')).
Proof.
  apply (@listed_blog_can_be_deleted Fixture.generated_id Fixture.generated_id
           Fixture.absent_id Fixture.list_posts Fixture.delete_react_as_edsger
           Fixture.seeded (map Blog.toJSON (blogs Fixture.seeded))
           (Blog.toJSON Fixture.react_patterns) Fixture.react_id);
    try reflexivity.
  left. reflexivity.
Defined.

Lemma updateOne_length (oid : ObjectId) (b : BlogBody) (l : list BlogDoc) :
  length (Blog.updateOne oid b l) = length l.
Proof.
  rewrite <- (length_map _id), updateOne_ids, length_map. reflexivity.
Qed.

(** Updating the post searched for leaves it found, updated. *)
Lemma updateOne_findById (oid : ObjectId) (b : BlogBody) (l : list BlogDoc) :
  Blog.findById oid (Blog.updateOne oid b l) =
  match Blog.findById oid l with
  | Some doc => Some (Blog.apply_update b doc)
  | None => None
  end.
Proof.
  induction l as [|d l IH]; simpl.
  - reflexivity.
  - destruct (String.eqb_spec (_id d) oid) as [Heq|Hne]; simpl.
    + rewrite Heq, String.eqb_refl. reflexivity.
    + destruct (String.eqb_spec (_id d) oid) as [Heq'|_]; [contradiction|].
      exact IH.
Qed.

(** The test [update a blog], for every store of well-formed posts with
    distinct identifiers: sending a stored post back with one more like, to
    [PUT /api/blogs/:id] under its own id, is answered 200 with exactly the
    document that was sent; that document is then the stored post, and the
    number of posts is unchanged. *)
Theorem update_round_trip
  (oid : ObjectId) (request : Request) (db : Db) (doc : BlogDoc) :
  NoDup (map _id (blogs db)) ->
  forallb well_formed_post (blogs db) = true ->
  In doc (blogs db) ->
  method request = PUT ->
  path request = ["api"; "blogs"; _id doc] ->
  body request =
    BlogPayload (mkBlogBody (Some (title doc)) (author doc) (Some (url doc))
                   (Some (likes doc + 1)%Z)) ->
  let sent :=
    mkBlog (_id doc) (title doc) (author doc) (url doc) (likes doc + 1)%Z
      (user doc) in
  exists db',
    app oid request db =
      ([Sent (mkResponse 200 [] (Some (Blog.toJSON sent)))], db') /\
    Blog.findById (_id doc) (blogs db') = Some sent /\
    length (blogs db') = length (blogs db) /\
    users db' = users db.
Proof.
  intros Hnd Hwf Hin Hm Hp Hbody sent.
  rewrite forallb_forall in Hwf.
  destruct (@well_formed_post_inv doc (Hwf doc Hin)) as (Hcast & Ht & Hu).
  assert (Hfind := @findById_distinct doc (blogs db) Hnd Hin).
  assert (Hvalid : Blog.validate_update (blog_fields (body request)) = []).
  { rewrite Hbody. unfold Blog.validate_update.
    cbn [blog_fields b_title b_url].
    apply String.eqb_neq in Ht, Hu. rewrite Ht, Hu. reflexivity. }
  assert (Hsent : Blog.apply_update (blog_fields (body request)) doc = sent).
  { rewrite Hbody. unfold Blog.apply_update, sent.
    cbn [blog_fields b_title b_author b_url b_likes].
    destruct (author doc); reflexivity. }
  unfold app. rewrite Hm, Hp, route_blog.
  unfold put_blog, try_catch, await, Blog.findByIdAndUpdate.
  rewrite Hcast, Hvalid, Hfind, Hsent.
  eexists. split; [reflexivity|]. cbn [blogs users].
  split; [|split; [apply updateOne_length | reflexivity]].
  rewrite updateOne_findById, Hfind, Hsent. reflexivity.
Qed.

Lemma update_round_trip_witness :
  let sent :=
    mkBlog (_id Fixture.react_patterns) (title Fixture.react_patterns)
      (author Fixture.react_patterns) (url Fixture.react_patterns)
      (likes Fixture.react_patterns + 1)%Z (user Fixture.react_patterns) in
  exists db',
    app Fixture.generated_id
        (mkRequest PUT ["api"; "blogs"; Fixture.react_id] None
           (BlogPayload (mkBlogBody (Some "React patterns") (Some "Michael Chan")
                           (Some "https://reactpatterns.com/") (Some 8%Z))))
        Fixture.seeded =
      ([Sent (mkResponse 200 [] (Some (Blog.toJSON sent)))], db') /\
    Blog.findById (_id Fixture.react_patterns) (blogs db') = Some sent /\
    length (blogs db') = length (blogs Fixture.seeded) /\
    users db' = users Fixture.seeded.
Proof.
  apply (@update_round_trip Fixture.generated_id
           (mkRequest PUT ["api"; "blogs"; Fixture.react_id] None
              (BlogPayload (mkBlogBody (Some "React patterns")
                              (Some "Michael Chan")
                              (Some "https://reactpatterns.com/") (Some 8%Z))))
           Fixture.seeded Fixture.react_patterns);
    try reflexivity.
  - distinct_ids.
  - left. reflexivity.
Defined.

(** ** Properties of every request *)

(** Case analysis on a run of the application: the route, the cast of the
    id, the validators and the search each go one way or the other. *)
Ltac run_app :=
  unfold app, get_blogs, post_blogs, delete_blog, put_blog, try_catch, await,
    Blog.find, Blog.save, Blog.findByIdAndDelete, Blog.findByIdAndUpdate;
  repeat match goal with
         | |- context [route ?m ?p] => destruct (route m p) eqn:?
         | |- context [castObjectId ?i] => destruct (castObjectId i) eqn:?
         | |- context [Blog.validate ?b] => destruct (Blog.validate b) eqn:?
         | |- context [Blog.validate_update ?b] =>
             destruct (Blog.validate_update b) eqn:?
         | |- context [Blog.findById ?o ?l] =>
             destruct (Blog.findById o l) eqn:?
         end.


(** No write on failure: a request answered with a status of 400 or more
    leaves both collections exactly as they were. *)
Theorem app_failure_keeps_store
  (oid : ObjectId) (request : Request) (db : Db) (r : Response) :
  In (Sent r) (fst (app oid request db)) ->
  400 <= statusCode r ->
  snd (app oid request db) = db.
Proof.
  run_app; cbn; intros Hin Hstatus;
    try reflexivity;
    repeat (destruct Hin as [Hin|Hin]; try discriminate Hin);
    try contradiction;
    injection Hin as Hin; subst r; cbn in Hstatus; lia.
Qed.

Lemma app_failure_keeps_store_witness :
  snd (app Fixture.generated_id
         (mkRequest POST ["api"; "blogs"] None (BlogPayload Fixture.untitled))
         Fixture.seeded) = Fixture.seeded.
Proof.
  apply (@app_failure_keeps_store Fixture.generated_id
           (mkRequest POST ["api"; "blogs"] None (BlogPayload Fixture.untitled))
           Fixture.seeded
           (mkResponse 400 []
              (Some (error_body
                       "Blog validation failed: title: Path `title` is required.")))).
  - right. left. reflexivity.
  - simpl. lia.
Defined.



















